(** * Session workflow of the Healthcare Translation Streamlit app

    A shallow embedding of [app/main.py]: one Streamlit script run is a
    computation in a small state-and-exception monad.  The state is the
    session state ([st.session_state]) together with the list of UI effects
    and service calls issued so far; an uncaught Python exception aborts the
    run, keeping the session writes done before it. *)

From Stdlib Require Import String Ascii List Bool.
Import ListNotations.
Open Scope string_scope.

(** Raw audio as bytes. *)
Definition bytes := list Byte.byte.

(** A Python exception: its class name and message. *)
Inductive exn := Exn (kind : string) (msg : string).

(** Result of a call that may raise. *)
Inductive result (A : Type) :=
| Ok (a : A)
| Raise (e : exn).
Arguments Ok {A} a.
Arguments Raise {A} e.

(** [st.session_state] after its initialisation (lines 184-189): the three
    keys are always present. *)
Record session := mk_session {
  original_transcript : string;
  checked_transcript : string;
  translation : string
}.

Definition initial_session : session := mk_session "" "" "".

(** Observable effects of a script run, in order. *)
Inductive event :=
| EvPlayback (data : bytes)                      (* st.audio(audio_value) *)
| EvTextArea (label value : string)              (* st.text_area *)
| EvSpinner (msg : string)                       (* st.spinner *)
| EvSuccess (msg : string)                       (* st.success *)
| EvWarning (msg : string)                       (* st.warning *)
| EvCallTranscribe (data : bytes) (file_name : string)
| EvCallTranslate (text source_lang target_lang : string)
| EvCallSynthesize (text lang : string)          (* gTTS(text=..., lang=...) *)
| EvAudioOut (data : bytes) (format : string)    (* st.audio(temp_file.name) *)
| EvDownload (data : bytes) (file_name mime : string).

(** ** The state-and-exception monad of a script run *)

Inductive outcome (A : Type) :=
| Done (a : A)
| Thrown (e : exn).
Arguments Done {A} a.
Arguments Thrown {A} e.

Definition world : Type := session * list event.

Definition M (A : Type) : Type := world -> outcome A * world.

Definition ret {A} (a : A) : M A := fun w => (Done a, w).

Definition bind {A B} (m : M A) (f : A -> M B) : M B :=
  fun w => match m w with
           | (Done a, w') => f a w'
           | (Thrown e, w') => (Thrown e, w')
           end.

Notation "x <- m ;; k" := (bind m (fun x => k))
  (at level 61, m at next level, right associativity).
Notation "m ;; k" := (bind m (fun _ => k))
  (at level 61, right associativity).

Definition get_session : M session := fun w => (Done (fst w), w).

Definition put_session (s : session) : M unit :=
  fun w => (Done tt, (s, snd w)).

Definition emit (e : event) : M unit :=
  fun w => (Done tt, (fst w, app (snd w) [e])).

(** A call that may raise: its exception propagates out of the run. *)
Definition lift {A} (r : result A) : M A :=
  fun w => match r with
           | Ok a => (Done a, w)
           | Raise e => (Thrown e, w)
           end.

(** Assignments [st.session_state.<key> = v]. *)
Definition set_original_transcript (v : string) : M unit :=
  s <- get_session ;;
  put_session (mk_session v (checked_transcript s) (translation s)).

Definition set_checked_transcript (v : string) : M unit :=
  s <- get_session ;;
  put_session (mk_session (original_transcript s) v (translation s)).

Definition set_translation (v : string) : M unit :=
  s <- get_session ;;
  put_session (mk_session (original_transcript s) (checked_transcript s) v).

(** ** Python helpers *)

(** Truthiness of a Python [str]: [not s] holds exactly for [""]. *)
Definition py_truthy (s : string) : bool := negb (String.eqb s "").

(** [str.lower] on ASCII characters (the language names are ASCII). *)
Definition ascii_lower (c : ascii) : ascii :=
  let n := nat_of_ascii c in
  if (Nat.leb 65 n && Nat.leb n 90)%bool then ascii_of_nat (n + 32)%nat else c.

Fixpoint py_lower (s : string) : string :=
  match s with
  | EmptyString => EmptyString
  | String c s' => String (ascii_lower c) (py_lower s')
  end.

(** Slice [s[:2]]: at most the first two characters. *)
Definition py_prefix2 (s : string) : string := substring 0 2 s.

(** The options of the two language select boxes (lines 237-238). *)
Definition languages : list string :=
  ["English"; "Urdu"; "Spanish"; "French"; "German"; "Italian";
   "Japanese"; "Korean"; "Portuguese"; "Russian"; "Chinese"].

(** Events that are calls to an external service. *)
Definition is_service_call (e : event) : bool :=
  match e with
  | EvCallTranscribe _ _ | EvCallTranslate _ _ _ | EvCallSynthesize _ _ => true
  | _ => false
  end.

Definition no_service_call (l : list event) : bool :=
  forallb (fun e => negb (is_service_call e)) l.

(** ** Widgets of one script run

    Streamlit reruns the whole script on every interaction; [st.button]
    returns [True] only in the run triggered by its click, so a run has at
    most one clicked button.  The select boxes return one of their
    options. *)
Inductive button := Transcribe_Audio | Translate | Speak_Translation.

Definition button_eqb (a b : button) : bool :=
  match a, b with
  | Transcribe_Audio, Transcribe_Audio
  | Translate, Translate
  | Speak_Translation, Speak_Translation => true
  | _, _ => false
  end.

Record widgets := mk_widgets {
  audio_value : option bytes;        (* st.audio_input(...), read() *)
  clicked : option button;
  transcript_to_translate : string;  (* "Original" or "Checked" *)
  source_lang : string;
  target_lang : string
}.

Definition st_button (w : widgets) (b : button) : bool :=
  match clicked w with
  | Some b' => button_eqb b b'
  | None => false
  end.

(** ** Concrete inputs

    Deterministic stand-ins for the external services and the inputs of the
    scenarios of the spec. *)
Definition audio_A : bytes := [Byte.x41].

Definition stub_transcribe (d : bytes) (f : string) : result (string * string) :=
  Ok ("helo wrld", "Hello world").

Definition stub_translate (text src tgt : string) : result string :=
  Ok "Hola mundo".

Definition stub_synthesize (text lang : string) : result bytes :=
  Ok [Byte.x49; Byte.x44; Byte.x33].

Definition down_transcribe (d : bytes) (f : string) : result (string * string) :=
  Raise (Exn "TranscriptionError" "service unreachable").

Definition down_translate (text src tgt : string) : result string :=
  Raise (Exn "TranslationError" "service unreachable").

Definition down_synthesize (text lang : string) : result bytes :=
  Raise (Exn "ValueError" "Language not supported: sp").

Definition w_idle : widgets :=
  mk_widgets (Some audio_A) None "Original" "English" "Spanish".

Definition w_transcribe_no_audio : widgets :=
  mk_widgets None (Some Transcribe_Audio) "Original" "English" "Spanish".

Definition prior_session : session := mk_session "a" "b" "c".

Definition transcribed_session : session :=
  mk_session "helo wrld" "Hello world" "".

Definition translated_session : session :=
  mk_session "helo wrld" "Hello world" "Hola mundo".

Definition blank_session : session := mk_session " " "" "".

Definition w_transcribe : widgets :=
  mk_widgets (Some audio_A) (Some Transcribe_Audio) "Original" "English" "Spanish".

Definition w_translate (variant : string) : widgets :=
  mk_widgets None (Some Translate) variant "English" "Spanish".

Definition w_speak : widgets :=
  mk_widgets None (Some Speak_Translation) "Checked" "English" "Spanish".

Section Script.

(** Modelled from the spec: the modules [components.transcription] and
    [components.translation] are not in the source tree.  Following the
    external interfaces of the spec, [transcribe_audio] either returns the
    pair (original, corrected) or raises, and [translate_transcript]
    either returns the translated text or raises.  [synthesize] stands for
    [gTTS(text=..., lang=...)] followed by [tts.save] into the temporary
    file, read back as bytes; it raises on an unsupported code or an
    unreachable service. *)
Variable transcribe_audio : bytes -> string -> result (string * string).
Variable translate_transcript : string -> string -> string -> result string.
Variable synthesize : string -> string -> result bytes.

(** Lines 211-225: record a voice message, then transcribe it. *)
Definition record_section (w : widgets) : M unit :=
  match audio_value w with
  | None => ret tt
  | Some audio_data =>
      emit (EvPlayback audio_data) ;;
      let file_name := "recorded_audio.wav" in
      if st_button w Transcribe_Audio then
        emit (EvSpinner "Transcribing audio... Please wait") ;;
        emit (EvCallTranscribe audio_data file_name) ;;
        p <- lift (transcribe_audio audio_data file_name) ;;
        let '(original, checked) := p in
        emit (EvSuccess "Transcription completed!") ;;
        set_original_transcript original ;;
        set_checked_transcript checked
      else ret tt
  end.

(** Lines 228-229. *)
Definition display_transcripts : M unit :=
  s <- get_session ;;
  emit (EvTextArea "Transcription Result (Original)" (original_transcript s)) ;;
  emit (EvTextArea
          "Checked Transcription (Post-processing: Grammar and Medical Vocabulary)"
          (checked_transcript s)).

(** Line 235. *)
Definition selected_transcript (w : widgets) (s : session) : string :=
  if String.eqb (transcript_to_translate w) "Original"
  then original_transcript s else checked_transcript s.

(** Lines 240-249. *)
Definition translation_section (w : widgets) : M unit :=
  s <- get_session ;;
  let transcript := selected_transcript w s in
  (if st_button w Translate then
     if negb (py_truthy transcript) then
       emit (EvWarning "Please transcribe an audio file before translating.")
     else
       emit (EvSpinner "Translating... Please wait") ;;
       emit (EvCallTranslate transcript (source_lang w) (target_lang w)) ;;
       t <- lift (translate_transcript transcript (source_lang w) (target_lang w)) ;;
       set_translation t ;;
       emit (EvSuccess "Translation completed!")
   else ret tt) ;;
  s' <- get_session ;;
  emit (EvTextArea "Translation Result" (translation s')).

(** Line 255: the speech-synthesis code of a target language. *)
Definition tts_lang (target : string) : string := py_lower (py_prefix2 target).

(** Lines 252-269. *)
Definition speak_section (w : widgets) : M unit :=
  s <- get_session ;;
  if py_truthy (translation s) then
    if st_button w Speak_Translation then
      emit (EvSpinner "Generating speech... Please wait") ;;
      let lang := tts_lang (target_lang w) in
      emit (EvCallSynthesize (translation s) lang) ;;
      audio <- lift (synthesize (translation s) lang) ;;
      emit (EvAudioOut audio "audio/mp3") ;;
      emit (EvSuccess "Audio generated!") ;;
      emit (EvDownload audio "translated_speech.mp3" "audio/mp3")
    else ret tt
  else ret tt.

(** One run of the script (from line 211 on). *)
Definition run_script (w : widgets) : M unit :=
  record_section w ;;
  display_transcripts ;;
  translation_section w ;;
  speak_section w.

(** The run from session [s] with an empty effect log. *)
Definition run (w : widgets) (s : session) : outcome unit * world :=
  run_script w (s, []).

Definition final_session (w : widgets) (s : session) : session :=
  fst (snd (run w s)).

Definition final_log (w : widgets) (s : session) : list event :=
  snd (snd (run w s)).

Definition final_outcome (w : widgets) (s : session) : outcome unit :=
  fst (run w s).

(** Successive reruns of the script in one session: [st.session_state]
    survives each run, also a run aborted by an exception, so the next run
    starts from the session the previous one left. *)
Fixpoint run_many (ws : list widgets) (s : session) : session :=
  match ws with
  | [] => s
  | w :: ws' => run_many ws' (final_session w s)
  end.

(** The transcript pair is empty or comes from one transcription call. *)
Definition transcripts_ok (s : session) : Prop :=
  (original_transcript s, checked_transcript s) = ("", "") \/
  exists d f, transcribe_audio d f = Ok (original_transcript s, checked_transcript s).

(** [translation] is empty or comes from one translation call. *)
Definition translation_ok (s : session) : Prop :=
  translation s = "" \/
  exists t a b, translate_transcript t a b = Ok (translation s).

(** ** Properties of a run *)

Ltac unfold_run :=
  unfold final_log, final_session, final_outcome, run, run_script,
    record_section, display_transcripts, translation_section, speak_section,
    set_translation, set_original_transcript, set_checked_transcript,
    get_session, put_session, emit, lift, bind, ret, st_button in *.

(** Split a run on the clicked button, the audio widget and every branch
    and service result, evaluating the hypothesis [H] in each case. *)
Ltac case_run H :=
  match goal with
  | av : option bytes, cl : option button |- _ =>
      destruct av; destruct cl as [[| |]|]; cbn in H
  end;
  repeat match type of H with
  | context[match ?x with Ok _ => _ | Raise _ => _ end] =>
      lazymatch type of x with
      | result (_ * _) => destruct x as [[? ?]|?]
      | _ => destruct x
      end; cbn in H
  | context[if ?b then _ else _] => destruct b eqn:?; cbn in H
  end.

Ltac case_run_goal :=
  repeat match goal with
  | |- context[match ?x with Ok _ => _ | Raise _ => _ end] =>
      lazymatch type of x with
      | result (_ * _) => destruct x as [[? ?]|?]
      | _ => destruct x
      end; cbn
  | |- context[if ?b then _ else _] => destruct b eqn:?; cbn
  end.

Lemma py_truthy_nonempty t : t <> "" -> py_truthy t = true.
Proof.
  intros H. unfold py_truthy. destruct (String.eqb_spec t ""); [contradiction|reflexivity].
Qed.

Lemma py_truthy_empty : py_truthy "" = false.
Proof. reflexivity. Qed.

(** A successful transcription writes both transcript fields and keeps the
    translation. *)
Lemma transcribe_ok_run w s audio o c :
  audio_value w = Some audio ->
  clicked w = Some Transcribe_Audio ->
  transcribe_audio audio "recorded_audio.wav" = Ok (o, c) ->
  final_outcome w s = Done tt /\
  final_session w s = mk_session o c (translation s).
Proof.
  intros Ha Hc Ht. destruct w as [av cl sel src tgt]; simpl in *; subst av cl.
  unfold_run; cbn. rewrite Ht; cbn.
  destruct (py_truthy (translation s)); cbn; split; reflexivity.
Qed.

(** A successful translation of a non-empty selected transcript writes the
    translation field only. *)
Lemma translate_ok_run w s t :
  clicked w = Some Translate ->
  selected_transcript w s <> "" ->
  translate_transcript (selected_transcript w s) (source_lang w) (target_lang w)
    = Ok t ->
  final_outcome w s = Done tt /\
  final_session w s =
    mk_session (original_transcript s) (checked_transcript s) t.
Proof.
  intros Hc Hne Ht. apply py_truthy_nonempty in Hne.
  destruct w as [av cl sel src tgt]; simpl in *; subst cl.
  unfold_run. destruct av as [a|]; cbn; rewrite Hne; cbn; rewrite Ht; cbn;
    destruct (py_truthy t); cbn; split; reflexivity.
Qed.

(** Every transcription call of a run carries the recorded bytes and the
    fixed file name of line 215. *)
Lemma transcribe_call_source w s d f :
  In (EvCallTranscribe d f) (final_log w s) ->
  audio_value w = Some d /\ f = "recorded_audio.wav".
Proof.
  destruct w as [av cl sel src tgt]; simpl.
  unfold_run. intros Hin.
  case_run Hin;
    repeat (destruct Hin as [Hin|Hin]; [try discriminate Hin|]);
    try contradiction;
    injection Hin as -> ->; split; reflexivity.
Qed.

(** Every speech-synthesis call of a run happens in a Speak Translation
    run, on a non-empty [translation], with the code of line 255. *)
Lemma synthesize_call_shape w s t code :
  In (EvCallSynthesize t code) (final_log w s) ->
  clicked w = Some Speak_Translation /\ py_truthy (translation s) = true /\
  t = translation s /\ code = tts_lang (target_lang w).
Proof.
  destruct w as [av cl sel src tgt]; simpl.
  unfold_run. intros Hin.
  case_run Hin;
    repeat (destruct Hin as [Hin|Hin]; [try discriminate Hin|]);
    try contradiction;
    injection Hin as <- <-; repeat split; auto.
Qed.

Lemma py_truthy_true t : py_truthy t = true -> t <> "".
Proof. intros H ->. discriminate H. Qed.

(** ** Claims *)

(** C1: Translate with an empty selected transcript shows the warning,
    never calls the Translation Service, and keeps [translation] (indeed the
    whole session) unchanged. *)
Theorem translate_empty_refused w s :
  clicked w = Some Translate ->
  selected_transcript w s = "" ->
  In (EvWarning "Please transcribe an audio file before translating.")
     (final_log w s) /\
  (forall t a b, ~ In (EvCallTranslate t a b) (final_log w s)) /\
  translation (final_session w s) = translation s /\
  final_session w s = s.
Proof.
  intros Hc He. destruct w as [av cl sel src tgt]; simpl in *; subst cl.
  unfold_run. destruct av as [a|]; cbn; rewrite He; cbn;
    destruct (py_truthy (translation s)); cbn;
    (split; [simpl; tauto|]);
    (split; [intros t x y Hin; simpl in Hin;
             repeat (destruct Hin as [Hin|Hin]; [discriminate Hin|]); exact Hin|]);
    split; reflexivity.
Qed.

(** C2: a successful transcription returning (original, corrected) writes
    [original_transcript] to the first and [checked_transcript] to the
    second component, both in the same run. *)
Theorem transcribe_success_sets_both w s audio o c :
  audio_value w = Some audio ->
  clicked w = Some Transcribe_Audio ->
  transcribe_audio audio "recorded_audio.wav" = Ok (o, c) ->
  original_transcript (final_session w s) = o /\
  checked_transcript (final_session w s) = c.
Proof.
  intros Ha Hc Ht. destruct (transcribe_ok_run w s audio o c Ha Hc Ht) as [_ ->].
  split; reflexivity.
Qed.

(** C3: a failing transcription call aborts the run with its exception and
    leaves the whole session unchanged. *)
Theorem transcribe_failure_keeps_session w s audio e :
  audio_value w = Some audio ->
  clicked w = Some Transcribe_Audio ->
  transcribe_audio audio "recorded_audio.wav" = Raise e ->
  final_outcome w s = Thrown e /\ final_session w s = s.
Proof.
  intros Ha Hc Ht. destruct w as [av cl sel src tgt]; simpl in *; subst av cl.
  unfold_run; cbn. rewrite Ht; cbn. split; reflexivity.
Qed.

(** C4: Translate on a non-empty selected transcript with a successful
    service response sets [translation] to the returned text and leaves the
    two transcript fields unchanged. *)
Theorem translate_success_only_translation w s t :
  clicked w = Some Translate ->
  selected_transcript w s <> "" ->
  translate_transcript (selected_transcript w s) (source_lang w) (target_lang w)
    = Ok t ->
  translation (final_session w s) = t /\
  original_transcript (final_session w s) = original_transcript s /\
  checked_transcript (final_session w s) = checked_transcript s.
Proof.
  intros Hc Hne Ht. destruct (translate_ok_run w s t Hc Hne Ht) as [_ ->].
  repeat split; reflexivity.
Qed.

(** C5: a failing translation call aborts the run with its exception and
    leaves [translation] (indeed the whole session) unchanged. *)
Theorem translate_failure_keeps_translation w s e :
  clicked w = Some Translate ->
  selected_transcript w s <> "" ->
  translate_transcript (selected_transcript w s) (source_lang w) (target_lang w)
    = Raise e ->
  final_outcome w s = Thrown e /\
  translation (final_session w s) = translation s /\
  final_session w s = s.
Proof.
  intros Hc Hne Ht. apply py_truthy_nonempty in Hne.
  destruct w as [av cl sel src tgt]; simpl in *; subst cl.
  unfold_run. destruct av as [a|]; cbn; rewrite Hne; cbn; rewrite Ht; cbn;
    repeat split; reflexivity.
Qed.

(** C6: the language code passed to speech synthesis is the target
    language name cut to its first two characters and lowercased; over the
    supported languages this gives the table below, so "Spanish" yields
    "sp", not the ISO code "es". *)
Theorem speak_code_is_lowered_prefix w s :
  clicked w = Some Speak_Translation ->
  In (target_lang w) languages ->
  translation s <> "" ->
  In (EvCallSynthesize (translation s) (py_lower (py_prefix2 (target_lang w))))
     (final_log w s) /\
  (forall t code, In (EvCallSynthesize t code) (final_log w s) ->
     code = py_lower (py_prefix2 (target_lang w))) /\
  map tts_lang languages =
    ["en"; "ur"; "sp"; "fr"; "ge"; "it"; "ja"; "ko"; "po"; "ru"; "ch"] /\
  tts_lang "Spanish" = "sp" /\ tts_lang "Spanish" <> "es".
Proof.
  intros Hc _ Hne. split; [|split; [|split; [reflexivity|split; [reflexivity|discriminate]]]].
  - apply py_truthy_nonempty in Hne.
    destruct w as [av cl sel src tgt]; simpl in *; subst cl.
    unfold_run. destruct av as [a|]; cbn; rewrite Hne; cbn;
      case_run_goal; repeat (first [left; reflexivity | right]).
  - intros t code Hin. apply synthesize_call_shape in Hin.
    destruct Hin as (_ & _ & _ & ->). reflexivity.
Qed.

(** C7: the Speech Synthesis Service is only called, and audio is only
    offered for download, in a run whose [translation] is non-empty; the
    text synthesized is that translation. *)
Theorem synthesis_requires_translation w s :
  (forall t code, In (EvCallSynthesize t code) (final_log w s) ->
     translation s <> "" /\ t = translation s /\ t <> "") /\
  (forall d f m, In (EvDownload d f m) (final_log w s) -> translation s <> "").
Proof.
  split.
  - intros t code Hin. apply synthesize_call_shape in Hin.
    destruct Hin as (_ & Ht & -> & _). apply py_truthy_true in Ht. tauto.
  - intros d f m. destruct w as [av cl sel src tgt]; simpl.
    unfold_run. intros Hin.
    case_run Hin;
      repeat (destruct Hin as [Hin|Hin]; [try discriminate Hin|]);
      try contradiction;
      apply py_truthy_true; assumption.
Qed.

(** C8 (amended): the only audio source of a run is the recording widget;
    every transcription call receives the recorded bytes together with the
    fixed file name "recorded_audio.wav". *)
Theorem transcription_audio_from_recorder w s d f :
  In (EvCallTranscribe d f) (final_log w s) ->
  audio_value w = Some d /\ f = "recorded_audio.wav".
Proof. apply transcribe_call_source. Qed.

(** C9: the transcript fields change only in a Transcribe Audio run, where a
    success writes both together and keeps [translation]; [translation]
    changes only in a Translate run, where a success writes it alone. *)
Theorem fields_written_by_own_phase w s :
  (clicked w <> Some Transcribe_Audio ->
   original_transcript (final_session w s) = original_transcript s /\
   checked_transcript (final_session w s) = checked_transcript s) /\
  (clicked w <> Some Translate ->
   translation (final_session w s) = translation s) /\
  (forall audio o c, audio_value w = Some audio ->
   clicked w = Some Transcribe_Audio ->
   transcribe_audio audio "recorded_audio.wav" = Ok (o, c) ->
   final_session w s = mk_session o c (translation s)) /\
  (forall t, clicked w = Some Translate ->
   selected_transcript w s <> "" ->
   translate_transcript (selected_transcript w s) (source_lang w) (target_lang w)
     = Ok t ->
   final_session w s =
     mk_session (original_transcript s) (checked_transcript s) t).
Proof.
  split; [|split; [|split]].
  - intros Hc. destruct w as [av cl sel src tgt]; simpl in *. unfold_run.
    destruct av; destruct cl as [[| |]|]; cbn; try congruence;
      case_run_goal; split; reflexivity.
  - intros Hc. destruct w as [av cl sel src tgt]; simpl in *. unfold_run.
    destruct av; destruct cl as [[| |]|]; cbn; try congruence;
      case_run_goal; reflexivity.
  - intros audio o c Ha Hc Ht. apply (transcribe_ok_run w s audio o c Ha Hc Ht).
  - intros t Hc Hne Ht. apply (translate_ok_run w s t Hc Hne Ht).
Qed.

(** C10: the guard [not transcript] rejects only the empty string: every
    non-empty selected transcript, whitespace-only ones such as " "
    included, is sent to the Translation Service as it is and raises no
    warning. *)
Theorem whitespace_transcript_translated w s :
  clicked w = Some Translate ->
  selected_transcript w s <> "" ->
  In (EvCallTranslate (selected_transcript w s) (source_lang w) (target_lang w))
     (final_log w s) /\
  ~ In (EvWarning "Please transcribe an audio file before translating.")
     (final_log w s).
Proof.
  intros Hc Hne. apply py_truthy_nonempty in Hne.
  destruct w as [av cl sel src tgt]; simpl in *; subst cl.
  unfold_run. destruct av as [a|]; cbn; rewrite Hne; cbn; case_run_goal;
    (split; [repeat (first [left; reflexivity | right])
            | intros Hin; repeat (destruct Hin as [Hin|Hin]; [discriminate Hin|]);
              exact Hin]).
Qed.

(** ** Further properties of the script *)

Ltac case_run_goal_eqn :=
  repeat match goal with
  | |- context[match ?x with Ok _ => _ | Raise _ => _ end] =>
      let E := fresh "E" in
      lazymatch type of x with
      | result (_ * _) => destruct x as [[? ?]|?] eqn:E
      | _ => destruct x eqn:E
      end; cbn
  | |- context[if ?b then _ else _] => destruct b eqn:?; cbn
  end.

Ltac case_run_eqn H :=
  repeat match type of H with
  | context[match ?x with Ok _ => _ | Raise _ => _ end] =>
      let E := fresh "E" in
      lazymatch type of x with
      | result (_ * _) => destruct x as [[? ?]|?] eqn:E
      | _ => destruct x eqn:E
      end; cbn in *
  | context[if ?b then _ else _] => destruct b eqn:?; cbn in *
  end.

Ltac find_in := simpl; repeat (first [left; reflexivity | right]).

Ltac not_in :=
  let Hin := fresh "Hin" in
  intros Hin; simpl in Hin;
  repeat (destruct Hin as [Hin|Hin]; [discriminate Hin|]); exact Hin.

(** A rerun with no button clicked (e.g. after changing a select box)
    keeps the session and calls no service. *)
Lemma no_click_run_is_inert w s :
  clicked w = None ->
  final_outcome w s = Done tt /\ final_session w s = s /\
  no_service_call (final_log w s) = true.
Proof.
  intros Hc. destruct w as [av cl sel src tgt]; simpl in *; subst cl.
  unfold_run. destruct av; cbn; case_run_goal; repeat split; reflexivity.
Qed.

(** Without recorded audio the Transcribe Audio button is not rendered, so
    its click does nothing. *)
Lemma transcribe_click_without_audio_is_inert w s :
  audio_value w = None ->
  clicked w = Some Transcribe_Audio ->
  final_outcome w s = Done tt /\ final_session w s = s /\
  no_service_call (final_log w s) = true.
Proof.
  intros Ha Hc. destruct w as [av cl sel src tgt]; simpl in *; subst av cl.
  unfold_run. cbn; case_run_goal; repeat split; reflexivity.
Qed.

(** With an empty [translation] the Speak Translation button is not
    rendered, so its click does nothing. *)
Lemma speak_click_without_translation_is_inert w s :
  clicked w = Some Speak_Translation ->
  translation s = "" ->
  final_outcome w s = Done tt /\ final_session w s = s /\
  no_service_call (final_log w s) = true.
Proof.
  intros Hc Ht. destruct w as [av cl sel src tgt]; simpl in *; subst cl.
  unfold_run. destruct av; cbn; rewrite Ht; cbn; repeat split; reflexivity.
Qed.

(** When audio is recorded, the first effect of the run is its playback. *)
Lemma recorded_audio_played_first w s d :
  audio_value w = Some d ->
  exists rest, final_log w s = EvPlayback d :: rest.
Proof.
  intros Ha. destruct w as [av cl sel src tgt]; simpl in *; subst av.
  unfold_run. destruct cl as [[| |]|]; cbn; case_run_goal; eexists; reflexivity.
Qed.

(** The transcript areas rendered after a successful transcription show the
    new transcripts of the same run, after the success message. *)
Lemma transcribe_success_displayed w s audio o c :
  audio_value w = Some audio ->
  clicked w = Some Transcribe_Audio ->
  transcribe_audio audio "recorded_audio.wav" = Ok (o, c) ->
  In (EvSuccess "Transcription completed!") (final_log w s) /\
  In (EvTextArea "Transcription Result (Original)" o) (final_log w s) /\
  In (EvTextArea
        "Checked Transcription (Post-processing: Grammar and Medical Vocabulary)" c)
     (final_log w s).
Proof.
  intros Ha Hc Ht. destruct w as [av cl sel src tgt]; simpl in *; subst av cl.
  unfold_run; cbn. rewrite Ht; cbn.
  destruct (py_truthy (translation s)); cbn; repeat split; find_in.
Qed.

(** After a successful translation the success message is shown and the
    Translation Result area shows the new text. *)
Lemma translate_success_displayed w s t :
  clicked w = Some Translate ->
  selected_transcript w s <> "" ->
  translate_transcript (selected_transcript w s) (source_lang w) (target_lang w)
    = Ok t ->
  In (EvSuccess "Translation completed!") (final_log w s) /\
  In (EvTextArea "Translation Result" t) (final_log w s).
Proof.
  intros Hc Hne Ht. apply py_truthy_nonempty in Hne.
  destruct w as [av cl sel src tgt]; simpl in *; subst cl.
  unfold_run. destruct av as [a|]; cbn; rewrite Hne; cbn; rewrite Ht; cbn;
    destruct (py_truthy t); cbn; split; find_in.
Qed.

(** A failed translation aborts the run: no success message and no
    Translation Result area are rendered. *)
Lemma translate_failure_not_displayed w s e :
  clicked w = Some Translate ->
  selected_transcript w s <> "" ->
  translate_transcript (selected_transcript w s) (source_lang w) (target_lang w)
    = Raise e ->
  ~ In (EvSuccess "Translation completed!") (final_log w s) /\
  (forall v, ~ In (EvTextArea "Translation Result" v) (final_log w s)).
Proof.
  intros Hc Hne Ht. apply py_truthy_nonempty in Hne.
  destruct w as [av cl sel src tgt]; simpl in *; subst cl.
  unfold_run. destruct av as [a|]; cbn; rewrite Hne; cbn; rewrite Ht; cbn;
    (split; [not_in|intros v; not_in]).
Qed.

(** A successful Speak Translation run plays and offers for download the
    very bytes returned by synthesis, under "translated_speech.mp3", and
    keeps the session. *)
Lemma speak_success_offers_audio w s audio :
  clicked w = Some Speak_Translation ->
  translation s <> "" ->
  synthesize (translation s) (tts_lang (target_lang w)) = Ok audio ->
  final_outcome w s = Done tt /\ final_session w s = s /\
  In (EvAudioOut audio "audio/mp3") (final_log w s) /\
  In (EvDownload audio "translated_speech.mp3" "audio/mp3") (final_log w s).
Proof.
  intros Hc Hne Hs. apply py_truthy_nonempty in Hne.
  destruct w as [av cl sel src tgt]; simpl in *; subst cl.
  unfold tts_lang in Hs.
  unfold_run. destruct av; cbn; rewrite Hne; cbn; unfold py_prefix2 in Hs;
    rewrite Hs; cbn; (split; [reflexivity|split; [reflexivity|split; find_in]]).
Qed.

(** A failed synthesis aborts the run: nothing is played or offered for
    download, and the session is kept. *)
Lemma speak_failure_offers_nothing w s e :
  clicked w = Some Speak_Translation ->
  translation s <> "" ->
  synthesize (translation s) (tts_lang (target_lang w)) = Raise e ->
  final_outcome w s = Thrown e /\ final_session w s = s /\
  (forall d f m, ~ In (EvDownload d f m) (final_log w s)) /\
  (forall d f, ~ In (EvAudioOut d f) (final_log w s)).
Proof.
  intros Hc Hne Hs. apply py_truthy_nonempty in Hne.
  destruct w as [av cl sel src tgt]; simpl in *; subst cl.
  unfold tts_lang in Hs.
  unfold_run. destruct av; cbn; rewrite Hne; cbn; unfold py_prefix2 in Hs;
    rewrite Hs; cbn;
    (split; [reflexivity|split; [reflexivity|split; [intros d f m; not_in|intros d f; not_in]]]).
Qed.

(** The script raises nothing of its own: an aborted run carries the
    exception raised by one of the service calls it logged. *)
Lemma run_exception_from_service w s e :
  final_outcome w s = Thrown e ->
  (exists d f, transcribe_audio d f = Raise e /\
     In (EvCallTranscribe d f) (final_log w s)) \/
  (exists t a b, translate_transcript t a b = Raise e /\
     In (EvCallTranslate t a b) (final_log w s)) \/
  (exists t c, synthesize t c = Raise e /\
     In (EvCallSynthesize t c) (final_log w s)).
Proof.
  destruct w as [av cl sel src tgt]. unfold_run. intros H.
  destruct av; destruct cl as [[| |]|]; cbn in *; case_run_eqn H;
    try discriminate H; injection H as <-;
    first
      [ left; do 2 eexists; split; [eassumption|find_in]
      | right; left; do 3 eexists; split; [eassumption|find_in]
      | right; right; do 2 eexists; split; [eassumption|find_in] ].
Qed.

(** One run keeps the transcript pair or replaces it by a pair returned by
    one transcription call. *)
Lemma run_transcripts_step w s :
  (original_transcript (final_session w s), checked_transcript (final_session w s))
    = (original_transcript s, checked_transcript s) \/
  exists d f, transcribe_audio d f =
    Ok (original_transcript (final_session w s), checked_transcript (final_session w s)).
Proof.
  destruct w as [av cl sel src tgt]. unfold_run.
  destruct av; destruct cl as [[| |]|]; cbn; case_run_goal_eqn;
    first [left; reflexivity | right; do 2 eexists; eassumption].
Qed.

(** One run keeps [translation] or replaces it by a text returned by one
    translation call. *)
Lemma run_translation_step w s :
  translation (final_session w s) = translation s \/
  exists t a b, translate_transcript t a b = Ok (translation (final_session w s)).
Proof.
  destruct w as [av cl sel src tgt]. unfold_run.
  destruct av; destruct cl as [[| |]|]; cbn; case_run_goal_eqn;
    first [left; reflexivity | right; do 3 eexists; eassumption].
Qed.

Lemma transcripts_ok_run_many ws s0 :
  transcripts_ok s0 -> transcripts_ok (run_many ws s0).
Proof.
  revert s0. induction ws as [|w ws IH]; intros s0 H0; simpl; [exact H0|].
  apply IH. unfold transcripts_ok.
  destruct (run_transcripts_step w s0) as [E|E].
  - rewrite E. exact H0.
  - right. exact E.
Qed.

Lemma translation_ok_run_many ws s0 :
  translation_ok s0 -> translation_ok (run_many ws s0).
Proof.
  revert s0. induction ws as [|w ws IH]; intros s0 H0; simpl; [exact H0|].
  apply IH. unfold translation_ok.
  destruct (run_translation_step w s0) as [E|E].
  - rewrite E. exact H0.
  - right. exact E.
Qed.

(** Over any sequence of reruns from a fresh session, the two transcripts
    are both empty or are together the pair returned by one transcription
    call: they are never mixed from different calls. *)
Lemma transcripts_from_one_call ws :
  transcripts_ok (run_many ws initial_session).
Proof. apply transcripts_ok_run_many. left. reflexivity. Qed.

(** Over any sequence of reruns from a fresh session, [translation] is
    empty or a text returned by the Translation Service. *)
Lemma translation_from_service ws :
  translation_ok (run_many ws initial_session).
Proof. apply translation_ok_run_many. left. reflexivity. Qed.

(** Two reruns compose: a successful transcription, then Translate on the
    "Checked" variant, sends the corrected transcript to the Translation
    Service and stores its answer, keeping both transcripts. *)
Lemma transcribe_then_translate_checked w1 w2 s audio o c t :
  audio_value w1 = Some audio ->
  clicked w1 = Some Transcribe_Audio ->
  transcribe_audio audio "recorded_audio.wav" = Ok (o, c) ->
  clicked w2 = Some Translate ->
  transcript_to_translate w2 = "Checked" ->
  c <> "" ->
  translate_transcript c (source_lang w2) (target_lang w2) = Ok t ->
  In (EvCallTranslate c (source_lang w2) (target_lang w2))
     (final_log w2 (final_session w1 s)) /\
  run_many [w1; w2] s = mk_session o c t.
Proof.
  intros Ha Hc1 Ht Hc2 Hv Hne Htr.
  destruct (transcribe_ok_run w1 s audio o c Ha Hc1 Ht) as [_ E1].
  assert (Hsel : selected_transcript w2 (mk_session o c (translation s)) = c).
  { unfold selected_transcript. rewrite Hv. reflexivity. }
  simpl. rewrite E1. split.
  - apply py_truthy_nonempty in Hne.
    destruct w2 as [av cl sel src tgt]; simpl in *; subst cl sel.
    unfold_run. destruct av; cbn; rewrite Hne; cbn; rewrite Htr; cbn;
      case_run_goal; find_in.
  - rewrite <- Hsel in Hne, Htr.
    destruct (translate_ok_run w2 (mk_session o c (translation s)) t Hc2 Hne Htr)
      as [_ E2].
    exact E2.
Qed.

End Script.

(** ** Witnesses and counterexample *)

Lemma translate_empty_refused_witness :
  clicked (w_translate "Original") = Some Translate /\
  selected_transcript (w_translate "Original") initial_session = "" /\
  final_session stub_transcribe stub_translate stub_synthesize
    (w_translate "Original") initial_session = initial_session.
Proof.
  split; [reflexivity|split; [reflexivity|]].
  apply (translate_empty_refused stub_transcribe stub_translate stub_synthesize
           (w_translate "Original") initial_session); reflexivity.
Defined.

Lemma transcribe_success_sets_both_witness :
  original_transcript (final_session stub_transcribe stub_translate stub_synthesize
    w_transcribe initial_session) = "helo wrld" /\
  checked_transcript (final_session stub_transcribe stub_translate stub_synthesize
    w_transcribe initial_session) = "Hello world".
Proof.
  apply (transcribe_success_sets_both stub_transcribe stub_translate stub_synthesize
           w_transcribe initial_session audio_A); reflexivity.
Defined.

Lemma transcribe_failure_keeps_session_witness :
  final_outcome down_transcribe stub_translate stub_synthesize w_transcribe prior_session
    = Thrown (Exn "TranscriptionError" "service unreachable") /\
  final_session down_transcribe stub_translate stub_synthesize w_transcribe prior_session
    = prior_session.
Proof.
  apply (transcribe_failure_keeps_session down_transcribe stub_translate stub_synthesize
           w_transcribe prior_session audio_A); reflexivity.
Defined.

Lemma translate_success_only_translation_witness :
  translation (final_session stub_transcribe stub_translate stub_synthesize
    (w_translate "Checked") transcribed_session) = "Hola mundo" /\
  original_transcript (final_session stub_transcribe stub_translate stub_synthesize
    (w_translate "Checked") transcribed_session) = "helo wrld" /\
  checked_transcript (final_session stub_transcribe stub_translate stub_synthesize
    (w_translate "Checked") transcribed_session) = "Hello world".
Proof.
  apply (translate_success_only_translation stub_transcribe stub_translate
           stub_synthesize (w_translate "Checked") transcribed_session);
    [reflexivity|discriminate|reflexivity].
Defined.

Lemma translate_failure_keeps_translation_witness :
  final_outcome stub_transcribe down_translate stub_synthesize
    (w_translate "Checked") translated_session
    = Thrown (Exn "TranslationError" "service unreachable") /\
  translation (final_session stub_transcribe down_translate stub_synthesize
    (w_translate "Checked") translated_session) = "Hola mundo" /\
  final_session stub_transcribe down_translate stub_synthesize
    (w_translate "Checked") translated_session = translated_session.
Proof.
  apply (translate_failure_keeps_translation stub_transcribe down_translate
           stub_synthesize (w_translate "Checked") translated_session);
    [reflexivity|discriminate|reflexivity].
Defined.

Lemma speak_code_is_lowered_prefix_witness :
  In (EvCallSynthesize "Hola mundo" "sp")
     (final_log stub_transcribe stub_translate stub_synthesize w_speak
        translated_session).
Proof.
  refine (proj1 (speak_code_is_lowered_prefix stub_transcribe stub_translate
                   stub_synthesize w_speak translated_session eq_refl _ _)).
  - simpl. repeat (first [left; reflexivity | right]).
  - discriminate.
Defined.

Lemma synthesis_requires_translation_witness :
  translation translated_session <> "" /\ "Hola mundo" = translation translated_session
  /\ "Hola mundo" <> "".
Proof.
  apply (proj1 (synthesis_requires_translation stub_transcribe stub_translate
                  stub_synthesize w_speak translated_session) "Hola mundo" "sp").
  vm_compute. repeat (first [left; reflexivity | right]).
Defined.

Lemma transcription_audio_from_recorder_witness :
  audio_value w_transcribe = Some audio_A /\
  "recorded_audio.wav" = "recorded_audio.wav".
Proof.
  apply (transcription_audio_from_recorder stub_transcribe stub_translate
           stub_synthesize w_transcribe initial_session).
  vm_compute. repeat (first [left; reflexivity | right]).
Defined.

(** C8, as stated, promises that audio with its file name, e.g. the bytes A
    with "x.wav" from an upload, reaches transcription unchanged whichever
    capability supplied it.  No run of the script ever calls the
    Transcription Service with the file name "x.wav": the upload path is
    commented out and the recorder always passes "recorded_audio.wav". *)
Lemma upload_file_name_never_transcribed :
  ~ (exists w s, In (EvCallTranscribe audio_A "x.wav")
                   (final_log stub_transcribe stub_translate stub_synthesize w s)).
Proof.
  intros (w & s & Hin). apply transcribe_call_source in Hin.
  destruct Hin as [_ Hf]. discriminate Hf.
Qed.

Lemma fields_written_by_own_phase_witness :
  final_session stub_transcribe stub_translate stub_synthesize w_transcribe
    prior_session = mk_session "helo wrld" "Hello world" "c".
Proof.
  apply (proj1 (proj2 (proj2 (fields_written_by_own_phase stub_transcribe
           stub_translate stub_synthesize w_transcribe prior_session)))
           audio_A "helo wrld" "Hello world"); reflexivity.
Defined.

Lemma whitespace_transcript_translated_witness :
  selected_transcript (w_translate "Original") blank_session = " " /\
  In (EvCallTranslate " " "English" "Spanish")
     (final_log stub_transcribe stub_translate stub_synthesize
        (w_translate "Original") blank_session).
Proof.
  split; [reflexivity|].
  apply (whitespace_transcript_translated stub_transcribe stub_translate
           stub_synthesize (w_translate "Original") blank_session);
    [reflexivity|discriminate].
Defined.

(** The scenarios of the spec, evaluated. *)
Example scenario_transcribe :
  final_session stub_transcribe stub_translate stub_synthesize w_transcribe
    initial_session = transcribed_session.
Proof. reflexivity. Qed.

Example scenario_translate :
  final_session stub_transcribe stub_translate stub_synthesize
    (w_translate "Checked") transcribed_session = translated_session.
Proof. reflexivity. Qed.

Example scenario_empty_translate :
  final_log stub_transcribe stub_translate stub_synthesize
    (w_translate "Checked") initial_session =
  [EvTextArea "Transcription Result (Original)" "";
   EvTextArea "Checked Transcription (Post-processing: Grammar and Medical Vocabulary)" "";
   EvWarning "Please transcribe an audio file before translating.";
   EvTextArea "Translation Result" ""].
Proof. reflexivity. Qed.

(** ** Witnesses of the further properties *)

Lemma no_click_run_is_inert_witness :
  final_session stub_transcribe stub_translate stub_synthesize w_idle prior_session
    = prior_session.
Proof.
  apply (no_click_run_is_inert stub_transcribe stub_translate stub_synthesize
           w_idle prior_session); reflexivity.
Defined.

Lemma transcribe_click_without_audio_is_inert_witness :
  final_session stub_transcribe stub_translate stub_synthesize
    w_transcribe_no_audio prior_session = prior_session.
Proof.
  apply (transcribe_click_without_audio_is_inert stub_transcribe stub_translate
           stub_synthesize w_transcribe_no_audio prior_session); reflexivity.
Defined.

Lemma speak_click_without_translation_is_inert_witness :
  no_service_call (final_log stub_transcribe stub_translate stub_synthesize
    w_speak transcribed_session) = true.
Proof.
  apply (speak_click_without_translation_is_inert stub_transcribe stub_translate
           stub_synthesize w_speak transcribed_session); reflexivity.
Defined.

Lemma recorded_audio_played_first_witness :
  exists rest, final_log down_transcribe stub_translate stub_synthesize
    w_transcribe prior_session = EvPlayback audio_A :: rest.
Proof.
  apply (recorded_audio_played_first down_transcribe stub_translate
           stub_synthesize w_transcribe prior_session audio_A); reflexivity.
Defined.

Lemma transcribe_success_displayed_witness :
  In (EvTextArea "Transcription Result (Original)" "helo wrld")
     (final_log stub_transcribe stub_translate stub_synthesize w_transcribe
        initial_session).
Proof.
  apply (transcribe_success_displayed stub_transcribe stub_translate
           stub_synthesize w_transcribe initial_session audio_A "helo wrld"
           "Hello world"); reflexivity.
Defined.

Lemma translate_success_displayed_witness :
  In (EvTextArea "Translation Result" "Hola mundo")
     (final_log stub_transcribe stub_translate stub_synthesize
        (w_translate "Checked") transcribed_session).
Proof.
  apply (translate_success_displayed stub_transcribe stub_translate
           stub_synthesize (w_translate "Checked") transcribed_session);
    [reflexivity|discriminate|reflexivity].
Defined.

Lemma translate_failure_not_displayed_witness :
  ~ In (EvSuccess "Translation completed!")
      (final_log stub_transcribe down_translate stub_synthesize
         (w_translate "Checked") transcribed_session).
Proof.
  apply (translate_failure_not_displayed stub_transcribe down_translate
           stub_synthesize (w_translate "Checked") transcribed_session
           (Exn "TranslationError" "service unreachable"));
    [reflexivity|discriminate|reflexivity].
Defined.

Lemma speak_success_offers_audio_witness :
  In (EvDownload [Byte.x49; Byte.x44; Byte.x33] "translated_speech.mp3" "audio/mp3")
     (final_log stub_transcribe stub_translate stub_synthesize w_speak
        translated_session).
Proof.
  apply (speak_success_offers_audio stub_transcribe stub_translate
           stub_synthesize w_speak translated_session);
    [reflexivity|discriminate|reflexivity].
Defined.

Lemma speak_failure_offers_nothing_witness :
  final_session stub_transcribe stub_translate down_synthesize w_speak
    translated_session = translated_session.
Proof.
  apply (speak_failure_offers_nothing stub_transcribe stub_translate
           down_synthesize w_speak translated_session
           (Exn "ValueError" "Language not supported: sp"));
    [reflexivity|discriminate|reflexivity].
Defined.

Lemma run_exception_from_service_witness :
  exists d f, down_transcribe d f = Raise (Exn "TranscriptionError" "service unreachable") /\
    In (EvCallTranscribe d f)
       (final_log down_transcribe stub_translate stub_synthesize w_transcribe
          prior_session).
Proof.
  destruct (run_exception_from_service down_transcribe stub_translate
              stub_synthesize w_transcribe prior_session
              (Exn "TranscriptionError" "service unreachable") eq_refl)
    as [H|[(t & a & b & H & _)|(t & c & H & _)]];
    [exact H|discriminate H|discriminate H].
Defined.

Lemma transcribe_then_translate_checked_witness :
  run_many stub_transcribe stub_translate stub_synthesize
    [w_transcribe; w_translate "Checked"] initial_session = translated_session.
Proof.
  apply (transcribe_then_translate_checked stub_transcribe stub_translate
           stub_synthesize w_transcribe (w_translate "Checked") initial_session
           audio_A "helo wrld" "Hello world" "Hola mundo");
    first [reflexivity | discriminate].
Defined.
